(** * RefineDet_chainer: refinedet/links/model/ssd_vgg16.py

    A shallow embedding of the model-construction glue of
    [ssd_vgg16.py]: the class-count check [_check_pretrained_model], the
    five detector constructors, the permissive checkpoint loader
    [_load_npz] and the forward passes of [VGG16RefineDet] and
    [VGG16Extractor320].

    Python values are modelled as the code uses them: [n_fg_class] is
    [None] or an integer ([option Z]); [pretrained_model] and [path] are
    [None] or a string ([option string]); the [_models] tables are
    dictionaries from strings to entries ([gmap string entry]).  Raising
    an exception and calling into the outside world (downloading a file,
    warning, opening a checkpoint) are made explicit by a small monad
    that carries the trace of external events next to the outcome. *)

From Stdlib Require Import ZArith List.
From stdpp Require Import base option strings gmap list pretty.

Local Open Scope string_scope.
Local Open Scope Z_scope.

(** ** Python exceptions and external events *)

Inductive exn : Type :=
  | ValueError (msg : string)
  | TypeError (msg : string)
  | IndexError (msg : string)
  | KeyError (key : string)
  | IOError (filename : string).

Inductive event : Type :=
  | Download (url : string)          (* chainercv.utils.download_model *)
  | Warn (category msg : string)     (* warnings.warn *)
  | Load (filename : string).        (* np.load *)

(** A computation yields the events it performed, in order, and either
    the exception it raised or its value. *)
Definition M (A : Type) : Type := list event * (exn + A).

Definition ret {A} (a : A) : M A := ([], inr a).
Definition raise {A} (e : exn) : M A := ([], inl e).
Definition emit (ev : event) : M unit := ([ev], inr tt).

Definition bind {A B} (k : A -> M B) (c : M A) : M B :=
  match c with
  | (t, inl e) => (t, inl e)
  | (t, inr a) => let '(t', r) := k a in ((t ++ t')%list, r)
  end.

(** The notations [x ← c; k] and [c;; k] sequence computations. *)
#[global] Instance M_ret : MRet M := @ret.
#[global] Instance M_bind : MBind M := @bind.

Definition trace {A} (c : M A) : list event := fst c.
Definition outcome {A} (c : M A) : exn + A := snd c.

(** ** Python truthiness and arithmetic on the values involved *)

(** [if n_fg_class:] -- [None] and [0] are false. *)
Definition truthy_int (n : option Z) : bool :=
  match n with
  | None => false
  | Some k => negb (k =? 0)
  end.

(** [if path:] -- [None] and the empty string are false. *)
Definition truthy_str (s : option string) : bool :=
  match s with
  | None => false
  | Some s => negb (String.eqb s "")
  end.

(** [a == b] on values that are [None] or an integer. *)
Definition py_eq (a b : option Z) : bool :=
  match a, b with
  | None, None => true
  | Some x, Some y => x =? y
  | _, _ => false
  end.

(** [n_fg_class + 1]: addition of an integer to [None] raises. *)
Definition py_add (a : option Z) (b : Z) : M Z :=
  match a with
  | Some x => mret (x + b)
  | None =>
      raise (TypeError "unsupported operand type(s) for +: 'NoneType' and 'int'")
  end.

(** ['{:d}'.format(n)] *)
Definition format_d (n : option Z) : M string :=
  match n with
  | Some k => mret (pretty k)
  | None =>
      raise (TypeError "unsupported format string passed to NoneType.__format__")
  end.

(** ** The tables of named pretrained weights *)

(** One entry of a [_models] dictionary:
    [{'n_fg_class': ..., 'url': ...}]. *)
Record entry : Type := Entry {
  entry_n_fg_class : option Z;
  entry_url : string
}.

(** The part of the outside world the module calls into. *)
Record env : Type := Env {
  (** where [download_model(url)] caches the file of [url] *)
  download_path : string -> string;
  (** the module-level [_available]: whether [import cv2] worked *)
  _available : bool
}.

Definition download_model (w : env) (url : string) : M string :=
  emit (Download url);; mret (download_path w url).

Definition warnings_warn (msg category : string) : M unit :=
  emit (Warn category msg).

(** ** [_check_pretrained_model] *)

Definition _check_pretrained_model (w : env)
    (n_fg_class : option Z) (pretrained_model : option string)
    (models : gmap string entry) : M (option Z * option string) :=
  match pretrained_model ≫= (models !!.) with
  | Some model =>
      (* if pretrained_model in models: *)
      n_fg_class ←
        (if truthy_int n_fg_class then
           if truthy_int (entry_n_fg_class model)
              && negb (py_eq n_fg_class (entry_n_fg_class model))
           then
             s ← format_d (entry_n_fg_class model);
             raise (ValueError ("n_fg_class should be " ++ s))
           else mret n_fg_class
         else
           if negb (truthy_int (entry_n_fg_class model))
           then raise (ValueError "n_fg_class must be specified")
           else mret (entry_n_fg_class model));
      path ← download_model w (entry_url model);
      (if negb (_available w) then
         warnings_warn
           ("cv2 is not installed on your environment. "
            ++ "Pretrained models are trained with cv2. "
            ++ "The performace may change with Pillow backend.")
           "RuntimeWarning"
       else mret ());;
      mret (n_fg_class, Some path)
  | None =>
      if truthy_str pretrained_model then
        (* elif pretrained_model: *)
        mret (n_fg_class, pretrained_model)
      else
        mret (n_fg_class, None)
  end.

(** ** The detectors and their [_models] tables *)

Inductive detector : Type :=
  | SSD300Plus
  | DSSD300
  | ESSD300Plus
  | ESSD300
  | RefineDet320.

#[global] Instance detector_eq_dec : EqDecision detector.
Proof. solve_decision. Defined.

Definition ssd300_voc0712 : entry :=
  {| entry_n_fg_class := Some 20;
     entry_url := "https://github.com/yuyu2172/share-weights/releases/"
                  ++ "download/0.0.3/ssd300_voc0712_2017_06_06.npz" |}.

Definition ssd_vgg16_imagenet : entry :=
  {| entry_n_fg_class := None;
     entry_url := "https://github.com/yuyu2172/share-weights/releases/"
                  ++ "download/0.0.3/ssd_vgg16_imagenet_2017_06_09.npz" |}.

Definition vgg16_fc_reduced : entry :=
  {| entry_n_fg_class := None;
     entry_url := "https://github.com/fukatani/RefineDet_chainer/releases/"
                  ++ "download/0.0.0/VGG_ILSVRC_16_layers_fc_reduced.npz" |}.

(** The class attribute [_models] of each detector.  Three of them have
    the ['voc0712'] entry commented out. *)
Definition _models (cls : detector) : gmap string entry :=
  match cls with
  | SSD300Plus | DSSD300 =>
      <["voc0712" := ssd300_voc0712]> {["imagenet" := ssd_vgg16_imagenet]}
  | ESSD300Plus | ESSD300 =>
      {["imagenet" := ssd_vgg16_imagenet]}
  | RefineDet320 =>
      {["imagenet" := vgg16_fc_reduced]}
  end.

(** RGB, (C, 1, 1) format *)
Definition _imagenet_mean : list Z := [123; 117; 104].

Inductive extractor_class : Type :=
  | VGG16Extractor300_cls
  | VGG16Extractor320_cls.

Inductive multibox_class : Type :=
  | ResidualMultibox
  | DeconvolutionalResidualMultibox
  | ExtendedResidualMultibox
  | ExtendedMultibox
  | MultiboxWithTCB.

Record multibox : Type := Multibox {
  multibox_cls : multibox_class;
  n_class : Z;
  aspect_ratios : list (list Z)
}.

(** ** Checkpoints and links with named parameters *)

(** An opened [.npz] archive: arrays by name. *)
Abbreviation npz ndarray := (gmap string ndarray).

(** The parameters of a link, by full name, in the order in which
    [serialize] visits them. *)
Abbreviation namedparams ndarray := (list (string * ndarray)).

Section Links.

Context {ndarray : Type}.

(** The arguments [SSD.__init__] / [RefineDetSSD.__init__] receive, and
    the parameters the link holds. *)
Record link : Type := Link {
  link_cls : detector;
  link_extractor : extractor_class;
  link_multibox : multibox;
  link_steps : list Z;
  link_sizes : list Z;
  link_mean : list Z;
  link_params : namedparams ndarray
}.

Definition set_params (self : link) (ps : namedparams ndarray) : link :=
  {| link_cls := link_cls self;
     link_extractor := link_extractor self;
     link_multibox := link_multibox self;
     link_steps := link_steps self;
     link_sizes := link_sizes self;
     link_mean := link_mean self;
     link_params := ps |}.

(** Modelled from the spec: [chainer.serializers.NpzDeserializer] is
    library code outside this repository.  It is the loader of "checkpoint
    files containing named parameter arrays loaded by name-matching"; its
    [strict] flag decides whether a name that the archive lacks is an
    error ([strict=True]) or is skipped, leaving the value as it is
    ([strict=False], "to skip unsaved parameters"). *)
Definition NpzDeserializer (f : npz ndarray) (strict : bool)
    (key : string) (value : ndarray) : M ndarray :=
  match f !! key with
  | Some dataset => mret dataset
  | None => if strict then raise (KeyError key) else mret value
  end.

(** Modelled from the spec: [d.load(obj)] hands every named parameter of
    [obj] to the deserializer [d] and stores what it returns. *)
Fixpoint load (d : string -> ndarray -> M ndarray)
    (obj : namedparams ndarray) : M (namedparams ndarray) :=
  match obj with
  | [] => mret []
  | (name, value) :: rest =>
      value' ← d name value;
      rest' ← load d rest;
      mret ((name, value') :: rest')
  end.

Section World.

(** The file system as [np.load] sees it: the archive stored under a
    file name, if any. *)
Variable np_load : string -> option (npz ndarray).

(** The freshly initialised parameters of a detector. *)
Variable initial_params : extractor_class -> multibox -> namedparams ndarray.

Variable w : env.

(** to skip unsaved parameters, use strict option. *)
Definition _load_npz (filename : string) (obj : namedparams ndarray) : M (namedparams ndarray) :=
  emit (Load filename);;
  match np_load filename with
  | None => raise (IOError filename)
  | Some f =>
      let d := NpzDeserializer f false in
      load d obj
  end.

(** The common shape of the five [__init__] methods: check the
    arguments, build the link with [n_class = n_fg_class + 1], then load
    the weights if there is a path. *)
Definition construct (cls : detector) (extractor : extractor_class)
    (mb : multibox_class) (ratios : list (list Z)) (steps sizes : list Z)
    (n_fg_class : option Z) (pretrained_model : option string) : M link :=
  '(n_fg_class, path) ←
    _check_pretrained_model w n_fg_class pretrained_model (_models cls);
  n_class ← py_add n_fg_class 1;
  let multibox := Multibox mb n_class ratios in
  let self :=
    Link cls extractor multibox steps sizes _imagenet_mean
      (initial_params extractor multibox) in
  match path with
  | Some filename =>
      if truthy_str path then
        ps ← _load_npz filename (link_params self);
        mret (set_params self ps)
      else mret self
  | None => mret self
  end.

Definition SSD300Plus__init__ :=
  construct SSD300Plus VGG16Extractor300_cls ResidualMultibox
    [[2]; [2; 3]; [2; 3]; [2; 3]; [2]; [2]]
    [8; 16; 32; 64; 100; 300] [30; 60; 111; 162; 213; 264; 315].

Definition DSSD300__init__ :=
  construct DSSD300 VGG16Extractor300_cls DeconvolutionalResidualMultibox
    [[2]; [2; 3]; [2; 3]; [2; 3]; [2]; [2]]
    [8; 16; 32; 64; 100; 300] [30; 60; 111; 162; 213; 264; 315].

Definition ESSD300Plus__init__ :=
  construct ESSD300Plus VGG16Extractor300_cls ExtendedResidualMultibox
    [[2]; [2; 3]; [2; 3]; [2; 3]; [2]; [2]]
    [8; 16; 32; 64; 100; 300] [30; 60; 111; 162; 213; 264; 315].

Definition ESSD300__init__ :=
  construct ESSD300 VGG16Extractor300_cls ExtendedMultibox
    [[2]; [2; 3]; [2; 3]; [2; 3]; [2]; [2]]
    [8; 16; 32; 64; 100; 300] [30; 60; 111; 162; 213; 264; 315].

Definition RefineDet320__init__ :=
  construct RefineDet320 VGG16Extractor320_cls MultiboxWithTCB
    [[2]; [2]; [2]; [2]]
    [8; 16; 32; 64] [32; 64; 128; 256].

(** [cls(n_fg_class, pretrained_model)] *)
Definition __init__ (cls : detector) :
    option Z -> option string -> M link :=
  match cls with
  | SSD300Plus => SSD300Plus__init__
  | DSSD300 => DSSD300__init__
  | ESSD300Plus => ESSD300Plus__init__
  | ESSD300 => ESSD300__init__
  | RefineDet320 => RefineDet320__init__
  end.

End World.
End Links.

(** ** The feature extractors *)

Section Extractors.

(** A [chainer.Variable] holding a batch of feature maps. *)
Context {variable : Type}.

(** [chainer.functions] *)
Variable relu : variable -> variable.
Variable max_pooling_2d :
  variable -> forall (ksize : Z) (stride : option Z) (pad : Z), variable.

(** The links registered by [VGG16RefineDet.__init__]. *)
Record VGG16RefineDet : Type := {
  conv1_1 : variable -> variable;
  conv1_2 : variable -> variable;
  conv2_1 : variable -> variable;
  conv2_2 : variable -> variable;
  conv3_1 : variable -> variable;
  conv3_2 : variable -> variable;
  conv3_3 : variable -> variable;
  conv4_1 : variable -> variable;
  conv4_2 : variable -> variable;
  conv4_3 : variable -> variable;
  norm4 : variable -> variable;
  conv5_1 : variable -> variable;
  conv5_2 : variable -> variable;
  conv5_3 : variable -> variable;
  conv6 : variable -> variable;
  conv7 : variable -> variable
}.

(** [VGG16Extractor320] adds two links to those of its base class. *)
Record VGG16Extractor320 : Type := {
  super : VGG16RefineDet;
  conv6_1 : variable -> variable;
  conv6_2 : variable -> variable
}.

Definition insize : Z := 320.
Definition grids : list Z := [40; 20; 10; 5].

(** [ys.append(y)] *)
Definition append (ys : list variable) (y : variable) : list variable :=
  (ys ++ [y])%list.

(** [ys[-1]] *)
Definition getitem_last (ys : list variable) : M variable :=
  match last ys with
  | Some y => mret y
  | None => raise (IndexError "list index out of range")
  end.

Definition VGG16RefineDet__call__ (self : VGG16RefineDet)
    (x : variable) : list variable :=
  let ys := [] in

  let h := relu (conv1_1 self x) in
  let h := relu (conv1_2 self h) in
  let h := max_pooling_2d h 2 None 0 in

  let h := relu (conv2_1 self h) in
  let h := relu (conv2_2 self h) in
  let h := max_pooling_2d h 2 None 0 in

  let h := relu (conv3_1 self h) in
  let h := relu (conv3_2 self h) in
  let h := relu (conv3_3 self h) in
  let h := max_pooling_2d h 2 None 0 in

  let h := relu (conv4_1 self h) in
  let h := relu (conv4_2 self h) in
  let h := relu (conv4_3 self h) in
  let ys := append ys (norm4 self h) in
  let h := max_pooling_2d h 2 None 0 in

  let h := relu (conv5_1 self h) in
  let h := relu (conv5_2 self h) in
  let h := relu (conv5_3 self h) in
  let ys := append ys (norm4 self h) in
  let h := max_pooling_2d h 2 (Some 2) 0 in

  let h := relu (conv6 self h) in
  let h := relu (conv7 self h) in
  let ys := append ys h in

  ys.

Definition VGG16Extractor320__call__ (self : VGG16Extractor320)
    (x : variable) : M (list variable) :=
  let ys := VGG16RefineDet__call__ (super self) x in
  h ← getitem_last ys;
  let h := relu (conv6_1 self h) in
  let h := relu (conv6_2 self h) in
  let ys := append ys h in
  mret ys.

(** The activations the feature maps are taken from, written as the
    composition of layers that leads to each. *)
Definition conv4_3_output (self : VGG16RefineDet) (x : variable) : variable :=
  let block1 := max_pooling_2d (relu (conv1_2 self (relu (conv1_1 self x)))) 2 None 0 in
  let block2 := max_pooling_2d (relu (conv2_2 self (relu (conv2_1 self block1)))) 2 None 0 in
  let block3 :=
    max_pooling_2d
      (relu (conv3_3 self (relu (conv3_2 self (relu (conv3_1 self block2))))))
      2 None 0 in
  relu (conv4_3 self (relu (conv4_2 self (relu (conv4_1 self block3))))).

Definition conv5_3_output (self : VGG16RefineDet) (x : variable) : variable :=
  let block4 := max_pooling_2d (conv4_3_output self x) 2 None 0 in
  relu (conv5_3 self (relu (conv5_2 self (relu (conv5_1 self block4))))).

Definition conv7_output (self : VGG16RefineDet) (x : variable) : variable :=
  let block5 := max_pooling_2d (conv5_3_output self x) 2 (Some 2) 0 in
  relu (conv7 self (relu (conv6 self block5))).

Definition conv6_2_output (self : VGG16Extractor320) (x : variable) : variable :=
  relu (conv6_2 self (relu (conv6_1 self (conv7_output (super self) x)))).

End Extractors.

(** ** Auxiliary definitions used to state the results *)

(** The events of a successful check against a named weight set: the
    download, then the warning when [cv2] is missing. *)
Definition named_events (w : env) (model : entry) : list event :=
  Download (entry_url model) ::
  (if _available w then []
   else [Warn "RuntimeWarning"
           ("cv2 is not installed on your environment. "
            ++ "Pretrained models are trained with cv2. "
            ++ "The performace may change with Pillow backend.")]).

(** What a permissive load leaves in the link: under each name the
    archive's array if it has one, the old value otherwise. *)
Definition merge_params {ndarray} (f : npz ndarray)
    (obj : namedparams ndarray) : namedparams ndarray :=
  map (fun '(name, value) => (name, default value (f !! name))) obj.

(** The link [construct] builds before it loads any weights, for the
    resolved class count [k]. *)
Definition fresh_link {ndarray}
    (initial_params : extractor_class -> multibox -> namedparams ndarray)
    (cls : detector) (extractor : extractor_class)
    (mb : multibox_class) (ratios : list (list Z)) (steps sizes : list Z)
    (k : Z) : link :=
  Link cls extractor (Multibox mb (k + 1) ratios) steps sizes _imagenet_mean
    (initial_params extractor (Multibox mb (k + 1) ratios)).

(** The class count a named weight set resolves to: "the table's count
    when the table fixes one, otherwise the caller-supplied count". *)
Definition resolved_count (model : entry) (n_fg_class : option Z) : option Z :=
  match entry_n_fg_class model with
  | Some c => Some c
  | None => n_fg_class
  end.

(** The events of loading from [path], if [if path:] lets it happen. *)
Definition load_events (path : option string) : list event :=
  match path with
  | Some filename => if truthy_str path then [Load filename] else []
  | None => []
  end.

Definition raises_ValueError {A} (c : M A) : Prop :=
  exists msg, outcome c = inl (ValueError msg).

Definition returns_normally {A} (c : M A) : Prop :=
  exists a, outcome c = inr a.

(** The validation rule in words: the call is rejected when
    [pretrained_model] names a weight set and either (a) the weight set
    has a count, the caller has one and the two differ, or (b) neither
    has one.  [available] says when a value counts as a class count. *)
Definition validation_rule (available : option Z -> Prop)
    (n_fg_class : option Z) (pretrained_model : option string)
    (models : gmap string entry) : Prop :=
  exists key model,
    pretrained_model = Some key /\ models !! key = Some model /\
    ((available (entry_n_fg_class model) /\ available n_fg_class /\
      n_fg_class <> entry_n_fg_class model)
     \/ (~ available (entry_n_fg_class model) /\ ~ available n_fg_class)).

(** Read literally, any value other than [None] is a count. *)
Definition given (n : option Z) : Prop := is_Some n.

(** For the code, a count is an integer other than zero. *)
Definition nonzero (n : option Z) : Prop := exists k, n = Some k /\ k <> 0.

Definition no_class_error : exn :=
  TypeError "unsupported operand type(s) for +: 'NoneType' and 'int'".

(** A world to evaluate the constructors in: arrays are single numbers,
    every downloaded file is an empty archive, ["model.npz"] holds two
    arrays, and a new link has two parameters. *)
Definition example_env : env :=
  {| download_path := fun url => "/cache/" ++ url; _available := true |}.

Definition example_np_load (filename : string) : option (npz Z) :=
  if String.prefix "/cache/" filename then Some ∅
  else if String.eqb filename "model.npz"
       then Some {["extractor/conv1_1/W" := 7; "unused" := 9]}
       else None.

Definition example_initial_params (e : extractor_class) (mb : multibox)
    : namedparams Z :=
  [("extractor/conv1_1/W", 0); ("extractor/conv1_1/b", n_class mb)].

(** ** The extractors on shapes

    The forward passes above are generic in what a variable is.  Here a
    variable is the shape [(batch, channels, height, width)] of a batch,
    or [None] when a layer has rejected its input, and every layer is
    the map on shapes that the arguments given to it in [__init__]
    determine. *)

Record shape : Type := Shape {
  batch : Z;
  channels : Z;
  height : Z;
  width : Z
}.

(** [chainer.utils.conv.get_conv_outsize(size, k, s, p, cover_all, d)];
    [//] rounds down. *)
Definition get_conv_outsize (size k s p : Z) (cover_all : bool) (d : Z) : Z :=
  let dk := k + (k - 1) * (d - 1) in
  if cover_all then (size + p * 2 - dk + s - 1) / s + 1
  else (size + p * 2 - dk) / s + 1.

(** A sliding window over height and width; both output sizes must be
    positive.  Pooling keeps the channels ([out_channels = None]). *)
Definition sliding_window (out_channels : option Z)
    (ksize stride pad dilate : Z) (cover_all : bool)
    (x : option shape) : option shape :=
  s ← x;
  let out_h := get_conv_outsize (height s) ksize stride pad cover_all dilate in
  let out_w := get_conv_outsize (width s) ksize stride pad cover_all dilate in
  if (0 <? out_h) && (0 <? out_w)
  then Some (Shape (batch s) (default (channels s) out_channels) out_h out_w)
  else None.

(** [L.Convolution2D(out_channels, ksize, stride=1, pad=0)]; the input
    channels are left open. *)
Definition Convolution2D (out_channels ksize stride pad : Z) :=
  sliding_window (Some out_channels) ksize stride pad 1 false.

(** [L.DilatedConvolution2D(out_channels, ksize, stride=1, pad=0, dilate=1)] *)
Definition DilatedConvolution2D (out_channels ksize stride pad dilate : Z) :=
  sliding_window (Some out_channels) ksize stride pad dilate false.

(** [Normalize(n_channel)] scales each of its [n_channel] channels. *)
Definition Normalize (n_channel : Z) (x : option shape) : option shape :=
  s ← x; if channels s =? n_channel then Some s else None.

(** [F.relu] *)
Definition relu_shape (x : option shape) : option shape := x.

(** [F.max_pooling_2d(x, ksize, stride=None, pad=0, cover_all=True)];
    without a stride the window moves by its own size. *)
Definition max_pooling_2d_shape (x : option shape)
    (ksize : Z) (stride : option Z) (pad : Z) : option shape :=
  sliding_window None ksize (default ksize stride) pad 1 true x.

(** The links as [VGG16RefineDet.__init__] creates them. *)
Definition VGG16RefineDet__init__ : VGG16RefineDet :=
  {| conv1_1 := Convolution2D 64 3 1 1;
     conv1_2 := Convolution2D 64 3 1 1;

     conv2_1 := Convolution2D 128 3 1 1;
     conv2_2 := Convolution2D 128 3 1 1;

     conv3_1 := Convolution2D 256 3 1 1;
     conv3_2 := Convolution2D 256 3 1 1;
     conv3_3 := Convolution2D 256 3 1 1;

     conv4_1 := Convolution2D 512 3 1 1;
     conv4_2 := Convolution2D 512 3 1 1;
     conv4_3 := Convolution2D 512 3 1 1;
     norm4 := Normalize 512;

     conv5_1 := DilatedConvolution2D 512 3 1 1 1;
     conv5_2 := DilatedConvolution2D 512 3 1 1 1;
     conv5_3 := DilatedConvolution2D 512 3 1 1 1;

     conv6 := DilatedConvolution2D 1024 3 1 3 3;
     conv7 := Convolution2D 1024 1 1 0 |}.

(** The links as [VGG16Extractor320.__init__] creates them. *)
Definition VGG16Extractor320__init__ : VGG16Extractor320 :=
  {| super := VGG16RefineDet__init__;
     conv6_1 := Convolution2D 256 1 1 0;
     conv6_2 := Convolution2D 512 3 2 1 |}.

(** The extractor of [RefineDet320] run on a batch of a given shape. *)
Definition VGG16Extractor320_shapes (x : shape) : M (list (option shape)) :=
  VGG16Extractor320__call__ relu_shape max_pooling_2d_shape
    VGG16Extractor320__init__ (Some x).

(** [size / step], rounded up. *)
Definition ceil_div (size step : Z) : Z := (size + step - 1) / step.

(** A [VGG16RefineDet] with another link in the place of [norm4]. *)
Definition with_norm4 {variable} (self : @VGG16RefineDet variable)
    (f : variable -> variable) : VGG16RefineDet :=
  {| conv1_1 := conv1_1 self; conv1_2 := conv1_2 self;
     conv2_1 := conv2_1 self; conv2_2 := conv2_2 self;
     conv3_1 := conv3_1 self; conv3_2 := conv3_2 self;
     conv3_3 := conv3_3 self;
     conv4_1 := conv4_1 self; conv4_2 := conv4_2 self;
     conv4_3 := conv4_3 self;
     norm4 := f;
     conv5_1 := conv5_1 self; conv5_2 := conv5_2 self;
     conv5_3 := conv5_3 self;
     conv6 := conv6 self; conv7 := conv7 self |}.

Definition is_Warn (ev : event) : bool :=
  match ev with
  | Warn _ _ => true
  | _ => false
  end.

(** The outside world with [cv2] importable or not. *)
Definition with_available (w : env) (b : bool) : env :=
  {| download_path := download_path w; _available := b |}.

(** What is left for a constructor to do once the check has returned a
    count and [path] and the link [self] is built: [if path: ...]. *)
Definition after_check {ndarray} (np_load : string -> option (npz ndarray))
    (self : @link ndarray) (path : option string) : exn + @link ndarray :=
  match path with
  | Some filename =>
      if truthy_str path then
        match np_load filename with
        | Some f => inr (set_params self (merge_params f (link_params self)))
        | None => inl (IOError filename)
        end
      else inr self
  | None => inr self
  end.

(** * Results *)

Ltac run_m :=
  cbv [mbind mret M_bind M_ret bind ret raise emit download_model
       warnings_warn format_d py_add].

(** ** The check, case by case *)

Section CheckLemmas.

Variable w : env.
Variable models : gmap string entry.

(** The outcome for a key of the table, as a decision tree over the
    truthiness of the two counts. *)
Lemma check_named n key m :
  models !! key = Some m ->
  _check_pretrained_model w n (Some key) models =
    if truthy_int n then
      if truthy_int (entry_n_fg_class m) && negb (py_eq n (entry_n_fg_class m))
      then ([], inl (ValueError ("n_fg_class should be " ++
              match entry_n_fg_class m with Some c => pretty c | None => "" end)))
      else (named_events w m, inr (n, Some (download_path w (entry_url m))))
    else
      if truthy_int (entry_n_fg_class m)
      then (named_events w m,
            inr (entry_n_fg_class m, Some (download_path w (entry_url m))))
      else ([], inl (ValueError "n_fg_class must be specified")).
Proof.
  intros Hm. unfold _check_pretrained_model, named_events. simpl. rewrite Hm.
  destruct (truthy_int n) eqn:Hn.
  - destruct (entry_n_fg_class m) as [c|] eqn:Hc; simpl.
    + destruct (negb (c =? 0) && negb (py_eq n (Some c))) eqn:E.
      * run_m. reflexivity.
      * run_m. destruct (_available w); reflexivity.
    + run_m. destruct (_available w); reflexivity.
  - destruct (truthy_int (entry_n_fg_class m)); simpl; run_m.
    + destruct (_available w); reflexivity.
    + reflexivity.
Qed.

(** Anything that is not a key is handed back: a non-empty string as the
    path, [None] or the empty string as no path. *)
Lemma check_unnamed n p :
  p ≫= (models !!.) = None ->
  _check_pretrained_model w n p models =
    ([], inr (n, if truthy_str p then p else None)).
Proof.
  intros Hp. unfold _check_pretrained_model. rewrite Hp.
  destruct (truthy_str p); reflexivity.
Qed.

Lemma check_mismatch k c key m :
  models !! key = Some m -> entry_n_fg_class m = Some c ->
  k <> 0 -> c <> 0 -> k <> c ->
  _check_pretrained_model w (Some k) (Some key) models =
    ([], inl (ValueError ("n_fg_class should be " ++ pretty c))).
Proof.
  intros Hm Hc Hk Hc0 Hkc. rewrite (check_named _ _ _ Hm), Hc. simpl.
  destruct (Z.eqb_spec k 0), (Z.eqb_spec c 0), (Z.eqb_spec k c);
    try contradiction; reflexivity.
Qed.

Lemma check_match c key m :
  models !! key = Some m -> entry_n_fg_class m = Some c -> c <> 0 ->
  _check_pretrained_model w (Some c) (Some key) models =
    (named_events w m, inr (Some c, Some (download_path w (entry_url m)))).
Proof.
  intros Hm Hc Hc0. rewrite (check_named _ _ _ Hm), Hc. simpl.
  rewrite Z.eqb_refl. destruct (Z.eqb_spec c 0); [contradiction|reflexivity].
Qed.

Lemma check_default n c key m :
  models !! key = Some m -> entry_n_fg_class m = Some c -> c <> 0 ->
  truthy_int n = false ->
  _check_pretrained_model w n (Some key) models =
    (named_events w m, inr (Some c, Some (download_path w (entry_url m)))).
Proof.
  intros Hm Hc Hc0 Hn. rewrite (check_named _ _ _ Hm), Hn, Hc. simpl.
  destruct (Z.eqb_spec c 0); [contradiction|reflexivity].
Qed.

Lemma check_unspecified n key m :
  models !! key = Some m -> truthy_int (entry_n_fg_class m) = false ->
  truthy_int n = false ->
  _check_pretrained_model w n (Some key) models =
    ([], inl (ValueError "n_fg_class must be specified")).
Proof.
  intros Hm Hc Hn. rewrite (check_named _ _ _ Hm), Hn, Hc. reflexivity.
Qed.

Lemma check_free n key m :
  models !! key = Some m -> truthy_int (entry_n_fg_class m) = false ->
  truthy_int n = true ->
  _check_pretrained_model w n (Some key) models =
    (named_events w m, inr (n, Some (download_path w (entry_url m)))).
Proof.
  intros Hm Hc Hn. rewrite (check_named _ _ _ Hm), Hn, Hc. reflexivity.
Qed.

(** An exception leaves the check before anything was done. *)
Lemma check_raise_silent n p t e :
  _check_pretrained_model w n p models = (t, inl e) -> t = [].
Proof.
  destruct (p ≫= (models !!.)) as [m|] eqn:Hp.
  - destruct p as [key|]; [|discriminate]. simpl in Hp.
    rewrite (check_named _ _ _ Hp).
    repeat match goal with |- context [if ?b then _ else _] => destruct b end;
      intros [= <- _]; try reflexivity; discriminate.
  - rewrite (check_unnamed _ _ Hp). discriminate.
Qed.

End CheckLemmas.

(** ** The loader and the constructors, step by step *)

Section LinkLemmas.

Context {ndarray : Type}.
Variable np_load : string -> option (npz ndarray).
Variable initial_params : extractor_class -> multibox -> namedparams ndarray.
Variable w : env.

(** With [strict=False] the traversal never raises and does nothing but
    replace values. *)
Lemma load_permissive (f : npz ndarray) (obj : namedparams ndarray) :
  load (NpzDeserializer f false) obj = ([], inr (merge_params f obj)).
Proof.
  induction obj as [|[name value] rest IH]; [reflexivity|].
  cbn [load]. rewrite IH. unfold NpzDeserializer.
  destruct (f !! name) eqn:Hf; cbn; rewrite Hf; reflexivity.
Qed.

(** With [strict=True] the first name the archive lacks stops the load. *)
Lemma load_strict_missing (f : npz ndarray) name value rest :
  f !! name = None ->
  load (NpzDeserializer f true) ((name, value) :: rest) =
    ([], inl (KeyError name)).
Proof.
  intros Hf. cbn [load]. unfold NpzDeserializer. rewrite Hf. reflexivity.
Qed.

Lemma _load_npz_found filename f obj :
  np_load filename = Some f ->
  _load_npz np_load filename obj = ([Load filename], inr (merge_params f obj)).
Proof.
  intros Hf. unfold _load_npz. rewrite Hf. cbv zeta.
  rewrite load_permissive. reflexivity.
Qed.

Lemma merge_params_names (f : npz ndarray) obj :
  (merge_params f obj).*1 = obj.*1.
Proof.
  induction obj as [|[name value] rest IH]; [reflexivity|].
  cbn. f_equal. exact IH.
Qed.

Lemma merge_params_lookup (f : npz ndarray) obj (i : nat) name value :
  obj !! i = Some (name, value) ->
  merge_params f obj !! i = Some (name, default value (f !! name)).
Proof.
  intros Hi. unfold merge_params. rewrite list_lookup_fmap, Hi. reflexivity.
Qed.

(** Only the archive's entries under the link's own names matter. *)
Lemma merge_params_agree (f f' : npz ndarray) obj :
  (forall name, name ∈ obj.*1 -> f' !! name = f !! name) ->
  merge_params f' obj = merge_params f obj.
Proof.
  induction obj as [|[name value] rest IH]; intros Hagree; [reflexivity|].
  cbn. rewrite Hagree by (cbn; left).
  f_equal. apply IH. intros n Hn. apply Hagree. cbn. right. exact Hn.
Qed.

Section Construct.

Variable cls : detector.
Variable extractor : extractor_class.
Variable mb : multibox_class.
Variable ratios : list (list Z).
Variables steps sizes : list Z.

Local Abbreviation build :=
  (construct np_load initial_params w cls extractor mb ratios steps sizes).
Local Abbreviation fresh :=
  (fresh_link initial_params cls extractor mb ratios steps sizes).

Lemma construct_check_raises n p t e :
  _check_pretrained_model w n p (_models cls) = (t, inl e) ->
  build n p = (t, inl e).
Proof.
  intros Hc. unfold construct. rewrite Hc. reflexivity.
Qed.

Lemma construct_no_class n p t path :
  _check_pretrained_model w n p (_models cls) = (t, inr (None, path)) ->
  build n p = (t, inl no_class_error).
Proof.
  intros Hc. unfold construct. rewrite Hc.
  run_m. rewrite app_nil_r. reflexivity.
Qed.

Lemma construct_no_path n p t k path :
  _check_pretrained_model w n p (_models cls) = (t, inr (Some k, path)) ->
  truthy_str path = false ->
  build n p = (t, inr (fresh k)).
Proof.
  intros Hc Hp. unfold construct. rewrite Hc.
  run_m. destruct path as [filename|]; [rewrite Hp|];
    cbn; rewrite !app_nil_r; reflexivity.
Qed.

Lemma construct_load n p t k filename :
  _check_pretrained_model w n p (_models cls) = (t, inr (Some k, Some filename)) ->
  filename <> "" ->
  build n p =
    ((t ++ [Load filename])%list,
     match np_load filename with
     | Some f =>
         inr (set_params (fresh k) (merge_params f (link_params (fresh k))))
     | None => inl (IOError filename)
     end).
Proof.
  intros Hc Hp. unfold construct. rewrite Hc.
  assert (Ht : truthy_str (Some filename) = true).
  { simpl. destruct (String.eqb_spec filename ""); [contradiction|reflexivity]. }
  run_m. rewrite Ht. unfold _load_npz. run_m.
  destruct (np_load filename) as [f|].
  - cbv zeta. rewrite load_permissive. cbn. reflexivity.
  - cbn. reflexivity.
Qed.

End Construct.

(** Every [__init__] is an instance of [construct]. *)
Lemma __init___construct cls :
  exists extractor mb ratios steps sizes,
    __init__ np_load initial_params w cls =
      construct np_load initial_params w cls extractor mb ratios steps sizes.
Proof. destruct cls; repeat eexists; reflexivity. Qed.

End LinkLemmas.

(** ** The tables of the five detectors *)

(** Each table has at most the two keys ['voc0712'] and ['imagenet'];
    only ['voc0712'] fixes a class count, and it fixes 20. *)
Lemma _models_inv cls key m :
  _models cls !! key = Some m ->
  (key = "voc0712" /\ m = ssd300_voc0712 /\ (cls = SSD300Plus \/ cls = DSSD300))
  \/ (key = "imagenet" /\ entry_n_fg_class m = None).
Proof.
  destruct cls; cbn [_models]; intros H;
    repeat (apply lookup_insert_Some in H as [[<- <-]|[_ H]];
            [left; auto|]);
    apply lookup_singleton_Some in H as [<- <-]; right; auto.
Qed.

Lemma _models_fixed cls key m c :
  _models cls !! key = Some m -> entry_n_fg_class m = Some c -> c = 20.
Proof.
  intros H Hc. destruct (_models_inv _ _ _ H) as [(_ & -> & _)|(_ & Hn)].
  - cbn in Hc. congruence.
  - congruence.
Qed.

Lemma _models_truthy cls key m :
  _models cls !! key = Some m ->
  truthy_int (entry_n_fg_class m) = bool_decide (is_Some (entry_n_fg_class m)).
Proof.
  intros H. destruct (_models_inv _ _ _ H) as [(_ & -> & _)|(_ & ->)];
    reflexivity.
Qed.

(** ** Construction against a named weight set that fixes a count *)

Section Constructors.

Context {ndarray : Type}.
Variable np_load : string -> option (npz ndarray).
Variable initial_params : extractor_class -> multibox -> namedparams ndarray.
Variable w : env.

Local Abbreviation init := (__init__ np_load initial_params w).

Lemma init_check_raises cls n p t e :
  _check_pretrained_model w n p (_models cls) = (t, inl e) ->
  init cls n p = (t, inl e).
Proof.
  intros Hc.
  destruct (__init___construct np_load initial_params w cls)
    as (ex & mb & ra & st & sz & ->).
  now apply construct_check_raises.
Qed.

(** What the constructors do with a non-zero supplied count against a
    table entry that fixes a count [c]: a count other than [c] is
    rejected with the [ValueError] "n_fg_class should be c" before any
    download, so the call can only return when [k = c]; and with [k = c]
    the check passes. *)
Lemma named_count_must_match cls key m c k :
  _models cls !! key = Some m ->
  entry_n_fg_class m = Some c ->
  k <> 0 ->
  (k <> c ->
     init cls (Some k) (Some key) =
       ([], inl (ValueError ("n_fg_class should be " ++ pretty c))))
  /\ (returns_normally (init cls (Some k) (Some key)) -> k = c)
  /\ (k = c ->
        _check_pretrained_model w (Some k) (Some key) (_models cls) =
          (named_events w m, inr (Some c, Some (download_path w (entry_url m))))).
Proof.
  intros Hm Hc Hk.
  assert (Hc0 : c <> 0) by (rewrite (_models_fixed _ _ _ _ Hm Hc); discriminate).
  assert (Hbad : k <> c ->
     init cls (Some k) (Some key) =
       ([], inl (ValueError ("n_fg_class should be " ++ pretty c)))).
  { intros Hkc. apply init_check_raises.
    now apply check_mismatch with (m := m). }
  split; [exact Hbad|]. split.
  - intros [self Hself]. destruct (decide (k = c)) as [|Hkc]; [assumption|].
    rewrite (Hbad Hkc) in Hself. discriminate.
  - intros ->. exact (check_match w (_models cls) c key m Hm Hc Hc0).
Qed.

(** C2 (as amended).  For every detector, when the caller supplies no
    [n_fg_class]: if [pretrained_model] is a key of the [_models] table
    whose entry has no class count, the constructor fails with the
    [ValueError] "n_fg_class must be specified"; if [pretrained_model] is
    not a key (a file path or [None]), the check validates nothing and
    returns, and the constructor fails when it computes
    [n_fg_class + 1], with a [TypeError]. *)
Theorem missing_count_fails cls p :
  (forall key m,
     p = Some key -> _models cls !! key = Some m ->
     entry_n_fg_class m = None ->
     init cls None p =
       ([], inl (ValueError "n_fg_class must be specified")))
  /\ (p ≫= (_models cls !!.) = None ->
      _check_pretrained_model w None p (_models cls) =
        ([], inr (None, if truthy_str p then p else None))
      /\ init cls None p = ([], inl no_class_error)).
Proof.
  split.
  - intros key m -> Hm Hc. apply init_check_raises.
    apply check_unspecified with (m := m); [exact Hm|now rewrite Hc|reflexivity].
  - intros Hp.
    pose proof (check_unnamed w (_models cls) None p Hp) as Hok.
    split; [exact Hok|].
    destruct (__init___construct np_load initial_params w cls)
      as (ex & mb & ra & st & sz & ->).
    eapply construct_no_class. exact Hok.
Qed.

(** What a constructor that returns has done after a passed check. *)
Lemma init_returns_inv cls n p t0 r path t self :
  _check_pretrained_model w n p (_models cls) = (t0, inr (r, path)) ->
  init cls n p = (t, inr self) ->
  t = (t0 ++ load_events path)%list
  /\ r = Some (n_class (link_multibox self) - 1)
  /\ link_cls self = cls.
Proof.
  intros Hc Hi.
  destruct (__init___construct np_load initial_params w cls)
    as (ex & mb & ra & st & sz & E).
  rewrite E in Hi. clear E.
  destruct r as [r|];
    [|rewrite (construct_no_class _ _ _ _ _ _ _ _ _ _ _ _ _ Hc) in Hi;
      discriminate].
  destruct (truthy_str path) eqn:Hp.
  - destruct path as [filename|]; [|discriminate].
    assert (Hne : filename <> "") by (intros ->; discriminate).
    rewrite (construct_load _ _ _ _ _ _ _ _ _ _ _ _ _ _ Hc Hne) in Hi.
    unfold load_events. rewrite Hp.
    destruct (np_load filename); [|discriminate].
    injection Hi as <- <-. cbn. repeat split. f_equal. lia.
  - rewrite (construct_no_path _ _ _ _ _ _ _ _ _ _ _ _ _ _ Hc Hp) in Hi.
    injection Hi as <- <-. cbn. repeat split.
    + unfold load_events. destruct path; [rewrite Hp|]; now rewrite app_nil_r.
    + f_equal. lia.
Qed.

(** For a key of the table the check either rejects the arguments
    before doing anything, or downloads the key's URL and returns the
    downloaded file with the resolved count. *)
Lemma check_named_resolved cls key m n :
  _models cls !! key = Some m ->
  (exists msg,
      _check_pretrained_model w n (Some key) (_models cls) =
        ([], inl (ValueError msg)))
  \/ _check_pretrained_model w n (Some key) (_models cls) =
       (named_events w m,
        inr (resolved_count m n, Some (download_path w (entry_url m)))).
Proof.
  intros Hm.
  rewrite (check_named _ _ _ _ _ Hm). unfold resolved_count.
  destruct (_models_inv _ _ _ Hm) as [(_ & -> & _)|(_ & ->)].
  - cbn [entry_n_fg_class ssd300_voc0712].
    destruct n as [k|]; cbn; [|right; reflexivity].
    destruct (Z.eqb_spec k 0) as [->|Hk]; cbn; [right; reflexivity|].
    destruct (Z.eqb_spec k 20) as [->|Hk20]; cbn.
    + right; reflexivity.
    + left; eexists; reflexivity.
  - cbn. destruct (truthy_int n); [right|left; eexists]; reflexivity.
Qed.

(** C6.  For every detector and every non-empty [pretrained_model]
    string that is not a key of its [_models] table, the check performs
    no validation and no download and returns the caller's [n_fg_class]
    unchanged with the string itself as the path; and with a
    caller-supplied count [k] the constructor does nothing to the outside
    world but open that file, and when the file is a checkpoint the
    new link has [k + 1] classes and the parameters loaded from it. *)
Theorem local_path_passthrough cls n s :
  s <> "" ->
  _models cls !! s = None ->
  _check_pretrained_model w n (Some s) (_models cls) = ([], inr (n, Some s))
  /\ (forall k, n = Some k ->
       trace (init cls n (Some s)) = [Load s]
       /\ (forall f, np_load s = Some f ->
            exists self,
              outcome (init cls n (Some s)) = inr self
              /\ n_class (link_multibox self) = k + 1
              /\ link_params self =
                   merge_params f
                     (initial_params (link_extractor self) (link_multibox self)))).
Proof.
  intros Hs Hm.
  assert (Hc : _check_pretrained_model w n (Some s) (_models cls) =
               ([], inr (n, Some s))).
  { rewrite check_unnamed by exact Hm. cbn [truthy_str].
    destruct (String.eqb_spec s ""); [contradiction|reflexivity]. }
  split; [exact Hc|].
  intros k ->.
  destruct (__init___construct np_load initial_params w cls)
    as (ex & mb & ra & st & sz & ->).
  rewrite (construct_load _ _ _ _ _ _ _ _ _ _ _ _ _ _ Hc Hs).
  split; [reflexivity|].
  intros f ->. eexists. split; [reflexivity|]. split; reflexivity.
Qed.

(** C8.  Whenever [_check_pretrained_model] raises a [ValueError], it
    has performed no external event: nothing was downloaded.  The
    constructor then fails with the same error and an empty trace as
    well: no download and no load of weights. *)
Theorem validation_failure_has_no_effects cls n p t msg :
  _check_pretrained_model w n p (_models cls) = (t, inl (ValueError msg)) ->
  t = []
  /\ init cls n p = ([], inl (ValueError msg))
  /\ (forall ev, ev ∉ trace (init cls n p)).
Proof.
  intros Hc.
  pose proof (check_raise_silent _ _ _ _ _ _ Hc) as ->.
  rewrite (init_check_raises _ _ _ _ _ Hc).
  split; [reflexivity|]. split; [reflexivity|].
  intros ev. cbn. apply not_elem_of_nil.
Qed.

End Constructors.

(** ** The validation rule as a whole *)

Lemma truthy_int_nonzero n : truthy_int n = true <-> nonzero n.
Proof.
  destruct n as [k|]; cbn.
  - destruct (Z.eqb_spec k 0) as [->|Hk]; cbn; split.
    + discriminate.
    + intros (k & [= <-] & Hk). contradiction.
    + intros _. now exists k.
    + reflexivity.
  - split; [discriminate|]. intros (k & Hk & _). discriminate.
Qed.

Lemma truthy_int_not_nonzero n : truthy_int n = false <-> ~ nonzero n.
Proof.
  rewrite <- truthy_int_nonzero. destruct (truthy_int n); split; auto;
    try discriminate. intros H. now contradiction H.
Qed.

Lemma py_eq_true a b : py_eq a b = true <-> a = b.
Proof.
  destruct a as [x|], b as [y|]; cbn; try (split; congruence).
  rewrite Z.eqb_eq. split; congruence.
Qed.

Lemma py_eq_false a b : negb (py_eq a b) = true <-> a <> b.
Proof.
  rewrite negb_true_iff, <- py_eq_true. destruct (py_eq a b); split; congruence.
Qed.

(** When the code raises.  [_check_pretrained_model] raises a
    [ValueError] if and only if [pretrained_model] is a key of the table
    and either (a) the entry's count and the caller's count are both
    non-zero integers and differ, or (b) neither of them is a non-zero
    integer; in every other case it returns. *)
Lemma check_raises_iff w n p (models : gmap string entry) :
  (raises_ValueError (_check_pretrained_model w n p models)
   <-> validation_rule nonzero n p models)
  /\ (~ validation_rule nonzero n p models ->
      returns_normally (_check_pretrained_model w n p models)).
Proof.
  unfold validation_rule.
  destruct (p ≫= (models !!.)) as [m|] eqn:Hp.
  - destruct p as [key|]; [|discriminate]. cbn in Hp.
    rewrite (check_named _ _ _ _ _ Hp).
    assert (Hrule :
      (exists key0 model, Some key = Some key0 /\ models !! key0 = Some model /\
        ((nonzero (entry_n_fg_class model) /\ nonzero n /\
          n <> entry_n_fg_class model)
         \/ (~ nonzero (entry_n_fg_class model) /\ ~ nonzero n)))
      <-> ((truthy_int (entry_n_fg_class m) = true /\ truthy_int n = true /\
            negb (py_eq n (entry_n_fg_class m)) = true)
           \/ (truthy_int (entry_n_fg_class m) = false /\ truthy_int n = false))).
    { rewrite !truthy_int_nonzero, !truthy_int_not_nonzero, py_eq_false. split.
      - intros (key0 & model & [= <-] & Hm & H). rewrite Hp in Hm.
        injection Hm as <-. exact H.
      - intros H. exists key, m. auto. }
    rewrite Hrule. clear Hrule.
    destruct (truthy_int n), (truthy_int (entry_n_fg_class m)),
      (negb (py_eq n (entry_n_fg_class m))); cbn;
      (split; [split|]);
      try (intros [msg Hmsg]; discriminate);
      try (intros _; eexists; reflexivity);
      try (intros [(? & ? & ?)|(? & ?)]; discriminate);
      try (intros H; exfalso; apply H; auto; fail);
      try (intros _; auto; fail).
  - rewrite (check_unnamed _ _ _ _ Hp). split; [split|].
    + intros [msg Hmsg]. discriminate.
    + intros (key & model & -> & Hm & _). cbn in Hp. congruence.
    + intros _. eexists. reflexivity.
Qed.

(** C7.  With a key of the table, [n_fg_class = 0] is treated exactly
    like [n_fg_class = None]: when the entry fixes a count there is no
    mismatch error and the entry's count is returned, and when the entry
    fixes none the call fails with "n_fg_class must be specified". *)
Theorem zero_count_is_no_count w (models : gmap string entry) key m :
  models !! key = Some m ->
  _check_pretrained_model w (Some 0) (Some key) models =
    _check_pretrained_model w None (Some key) models
  /\ (forall c, entry_n_fg_class m = Some c -> c <> 0 ->
       _check_pretrained_model w (Some 0) (Some key) models =
         (named_events w m,
          inr (Some c, Some (download_path w (entry_url m)))))
  /\ (entry_n_fg_class m = None ->
       _check_pretrained_model w (Some 0) (Some key) models =
         ([], inl (ValueError "n_fg_class must be specified"))).
Proof.
  intros Hm. split; [|split].
  - rewrite !(check_named _ _ _ _ _ Hm). reflexivity.
  - intros c Hc Hc0. now apply check_default.
  - intros Hc. apply check_unspecified with (m := m);
      [exact Hm|now rewrite Hc|reflexivity].
Qed.

(** ** Loading a checkpoint *)

(** C3.  Loading is permissive.  For every checkpoint [f] stored under
    [filename] and every link, [_load_npz] succeeds; the link keeps its
    parameter names; each parameter gets the checkpoint's array of the
    same name, and keeps its value when the checkpoint has no such name;
    and names of the checkpoint that the link does not have play no
    part: any checkpoint that agrees with [f] on the link's names gives
    the same result. *)
Theorem _load_npz_permissive {ndarray}
    (np_load : string -> option (npz ndarray)) filename f
    (obj : namedparams ndarray) :
  np_load filename = Some f ->
  exists obj',
    _load_npz np_load filename obj = ([Load filename], inr obj')
    /\ obj'.*1 = obj.*1
    /\ (forall (i : nat) name value,
         obj !! i = Some (name, value) ->
         obj' !! i =
           Some (name, match f !! name with Some a => a | None => value end))
    /\ (forall np_load' f',
         np_load' filename = Some f' ->
         (forall name, name ∈ obj.*1 -> f' !! name = f !! name) ->
         _load_npz np_load' filename obj = ([Load filename], inr obj')).
Proof.
  intros Hf. exists (merge_params f obj). split; [|split; [|split]].
  - now apply _load_npz_found.
  - apply merge_params_names.
  - intros i name value Hi.
    rewrite (merge_params_lookup _ _ _ _ _ Hi). reflexivity.
  - intros np_load' f' Hf' Hagree.
    rewrite (_load_npz_found _ _ _ _ Hf'). do 2 f_equal.
    now apply merge_params_agree.
Qed.

(** ** The feature maps *)

(** C9.  For every input, [VGG16RefineDet.__call__] returns exactly
    three feature maps: [norm4] of the [conv4_3] activation, the same
    [norm4] of the [conv5_3] activation, and the [conv7] activation, in
    this order.  [VGG16Extractor320.__call__] returns these three
    followed by the [conv6_2] activation: four maps, one for each entry
    of [grids]. *)
Theorem feature_maps {variable : Type}
    (relu : variable -> variable)
    (max_pooling_2d : variable -> Z -> option Z -> Z -> variable)
    (base : VGG16RefineDet) (self : VGG16Extractor320) (x : variable) :
  VGG16RefineDet__call__ relu max_pooling_2d base x =
    [norm4 base (conv4_3_output relu max_pooling_2d base x);
     norm4 base (conv5_3_output relu max_pooling_2d base x);
     conv7_output relu max_pooling_2d base x]
  /\ length (VGG16RefineDet__call__ relu max_pooling_2d base x) = 3%nat
  /\ exists ys,
       VGG16Extractor320__call__ relu max_pooling_2d self x = ([], inr ys)
       /\ ys =
           (VGG16RefineDet__call__ relu max_pooling_2d (super self) x
            ++ [conv6_2_output relu max_pooling_2d self x])%list
       /\ length ys = 4%nat
       /\ length ys = length grids.
Proof.
  split; [reflexivity|]. split; [reflexivity|].
  eexists. split; [reflexivity|]. repeat split.
Qed.

(** * Concrete instances *)

Local Abbreviation example_init :=
  (__init__ example_np_load example_initial_params example_env).

Lemma named_count_must_match_witness :
  _models SSD300Plus !! "voc0712" = Some ssd300_voc0712
  /\ entry_n_fg_class ssd300_voc0712 = Some 20
  /\ example_init SSD300Plus (Some 3) (Some "voc0712") =
       ([], inl (ValueError "n_fg_class should be 20")).
Proof.
  split; [reflexivity|]. split; [reflexivity|].
  apply (named_count_must_match example_np_load example_initial_params
           example_env SSD300Plus "voc0712" ssd300_voc0712 20 3);
    [reflexivity|reflexivity|discriminate|discriminate].
Defined.

(** C1.  The code breaks the claim at a supplied count of 0.
    ['voc0712'] fixes 20 and the caller supplies 0, which does not equal
    20; the call should fail with a [ValueError] (the docstrings say
    "n_fg_class must be 20 or None").  But [if n_fg_class:] takes 0 for
    no count, the comparison is skipped, and [SSD300Plus(0, 'voc0712')]
    returns a link with 21 classes. *)
Theorem zero_count_accepted :
  _models SSD300Plus !! "voc0712" = Some ssd300_voc0712
  /\ entry_n_fg_class ssd300_voc0712 = Some 20
  /\ 0 <> 20
  /\ returns_normally (example_init SSD300Plus (Some 0) (Some "voc0712"))
  /\ ~ raises_ValueError (example_init SSD300Plus (Some 0) (Some "voc0712"))
  /\ (exists self,
        outcome (example_init SSD300Plus (Some 0) (Some "voc0712")) = inr self
        /\ n_class (link_multibox self) = 21).
Proof.
  split; [reflexivity|]. split; [reflexivity|]. split; [discriminate|].
  split; [eexists; reflexivity|]. split.
  - intros [msg Hmsg]. discriminate.
  - eexists. split; reflexivity.
Qed.

Lemma missing_count_fails_witness :
  _models RefineDet320 !! "imagenet" = Some vgg16_fc_reduced
  /\ entry_n_fg_class vgg16_fc_reduced = None
  /\ example_init RefineDet320 None (Some "imagenet") =
       ([], inl (ValueError "n_fg_class must be specified"))
  /\ example_init RefineDet320 None (Some "model.npz") =
       ([], inl no_class_error).
Proof.
  split; [reflexivity|]. split; [reflexivity|]. split.
  - apply (proj1 (missing_count_fails example_np_load example_initial_params
                    example_env RefineDet320 (Some "imagenet"))
             "imagenet" vgg16_fc_reduced); reflexivity.
  - apply (proj2 (missing_count_fails example_np_load example_initial_params
                    example_env RefineDet320 (Some "model.npz"))).
    reflexivity.
Defined.

(** C2, as stated, fails when [pretrained_model] is [None] or a file
    path: no count is available from either source, yet the check
    returns normally and the constructor ends in a [TypeError], not in
    the validation error. *)
Lemma missing_count_unvalidated :
  _models SSD300Plus !! "model.npz" = None
  /\ _check_pretrained_model example_env None None (_models SSD300Plus) =
       ([], inr (None, None))
  /\ _check_pretrained_model example_env None (Some "model.npz")
       (_models SSD300Plus) = ([], inr (None, Some "model.npz"))
  /\ example_init SSD300Plus None None = ([], inl no_class_error)
  /\ example_init SSD300Plus None (Some "model.npz") = ([], inl no_class_error)
  /\ ~ raises_ValueError (example_init SSD300Plus None None)
  /\ ~ raises_ValueError (example_init SSD300Plus None (Some "model.npz")).
Proof.
  repeat (split; [reflexivity|]).
  split; intros [msg Hmsg]; discriminate.
Qed.

Lemma _load_npz_permissive_witness :
  example_np_load "model.npz" =
    Some {["extractor/conv1_1/W" := 7; "unused" := 9]}
  /\ exists obj',
       _load_npz example_np_load "model.npz"
         [("extractor/conv1_1/W", 0); ("extractor/conv1_1/b", 5)] =
         ([Load "model.npz"], inr obj')
       /\ obj' !! 0%nat = Some ("extractor/conv1_1/W", 7)
       /\ obj' !! 1%nat = Some ("extractor/conv1_1/b", 5).
Proof.
  split; [reflexivity|].
  destruct (_load_npz_permissive example_np_load "model.npz"
              {["extractor/conv1_1/W" := 7; "unused" := 9]}
              [("extractor/conv1_1/W", 0); ("extractor/conv1_1/b", 5)]
              eq_refl) as (obj' & Hrun & _ & Hget & _).
  exists obj'. split; [exact Hrun|]. split.
  - exact (Hget 0%nat "extractor/conv1_1/W" 0 eq_refl).
  - exact (Hget 1%nat "extractor/conv1_1/b" 5 eq_refl).
Defined.

Lemma check_raises_iff_witness :
  raises_ValueError
    (_check_pretrained_model example_env (Some 3) (Some "voc0712")
       (_models DSSD300))
  /\ returns_normally
       (_check_pretrained_model example_env (Some 3) (Some "model.npz")
          (_models DSSD300)).
Proof.
  split.
  - apply (proj1 (check_raises_iff example_env (Some 3) (Some "voc0712")
                    (_models DSSD300))).
    exists "voc0712", ssd300_voc0712.
    split; [reflexivity|]. split; [reflexivity|]. left.
    split; [exists 20; split; [reflexivity|discriminate]|].
    split; [exists 3; split; [reflexivity|discriminate]|discriminate].
  - apply (proj2 (check_raises_iff example_env (Some 3) (Some "model.npz")
                    (_models DSSD300))).
    intros (key & model & [= <-] & Hm & _). discriminate.
Defined.

(** C4.  The code breaks the rule at a supplied count of 0, in both
    directions.  With ['voc0712'], which fixes 20, the supplied 0 does not
    match (the docstrings say "n_fg_class must be 20 or None") and yet the
    check returns; with ['imagenet'], which fixes nothing, a count was
    supplied (the docstrings say "n_fg_class can be set to any number")
    and yet the check raises "n_fg_class must be specified". *)
Theorem zero_count_escapes_the_rule :
  validation_rule given (Some 0) (Some "voc0712") (_models SSD300Plus)
  /\ returns_normally
       (_check_pretrained_model example_env (Some 0) (Some "voc0712")
          (_models SSD300Plus))
  /\ ~ raises_ValueError
       (_check_pretrained_model example_env (Some 0) (Some "voc0712")
          (_models SSD300Plus))
  /\ ~ validation_rule given (Some 0) (Some "imagenet") (_models SSD300Plus)
  /\ raises_ValueError
       (_check_pretrained_model example_env (Some 0) (Some "imagenet")
          (_models SSD300Plus)).
Proof.
  split; [|split; [|split; [|split]]].
  - exists "voc0712", ssd300_voc0712.
    split; [reflexivity|]. split; [reflexivity|]. left.
    split; [eexists; reflexivity|].
    split; [eexists; reflexivity|discriminate].
  - eexists. reflexivity.
  - intros [msg Hmsg]. discriminate.
  - intros (key & model & [= <-] & Hm & H).
    injection Hm as <-.
    destruct H as [([c Hc] & _)|(_ & Hn)]; [discriminate|].
    apply Hn. eexists. reflexivity.
  - eexists. reflexivity.
Qed.

Lemma local_path_passthrough_witness :
  "model.npz" <> ""
  /\ _models RefineDet320 !! "model.npz" = None
  /\ _check_pretrained_model example_env (Some 5) (Some "model.npz")
       (_models RefineDet320) = ([], inr (Some 5, Some "model.npz"))
  /\ trace (example_init RefineDet320 (Some 5) (Some "model.npz")) =
       [Load "model.npz"].
Proof.
  split; [discriminate|]. split; [reflexivity|].
  destruct (local_path_passthrough example_np_load example_initial_params
              example_env RefineDet320 (Some 5) "model.npz"
              ltac:(discriminate) eq_refl) as [Hcheck Hinit].
  split; [exact Hcheck|].
  exact (proj1 (Hinit 5 eq_refl)).
Defined.

Lemma zero_count_is_no_count_witness :
  _models SSD300Plus !! "voc0712" = Some ssd300_voc0712
  /\ _check_pretrained_model example_env (Some 0) (Some "voc0712")
       (_models SSD300Plus) =
     _check_pretrained_model example_env None (Some "voc0712")
       (_models SSD300Plus)
  /\ _check_pretrained_model example_env (Some 0) (Some "voc0712")
       (_models SSD300Plus) =
     (named_events example_env ssd300_voc0712,
      inr (Some 20,
           Some (download_path example_env (entry_url ssd300_voc0712)))).
Proof.
  split; [reflexivity|].
  destruct (zero_count_is_no_count example_env (_models SSD300Plus)
              "voc0712" ssd300_voc0712 eq_refl) as (Hsame & Hfixed & _).
  split; [exact Hsame|].
  apply Hfixed; [reflexivity|discriminate].
Defined.

Lemma validation_failure_has_no_effects_witness :
  _check_pretrained_model example_env (Some 3) (Some "voc0712")
    (_models SSD300Plus) =
    ([], inl (ValueError "n_fg_class should be 20"))
  /\ example_init SSD300Plus (Some 3) (Some "voc0712") =
       ([], inl (ValueError "n_fg_class should be 20")).
Proof.
  split; [reflexivity|].
  exact (proj1 (proj2 (validation_failure_has_no_effects example_np_load
                         example_initial_params example_env SSD300Plus
                         (Some 3) (Some "voc0712") []
                         "n_fg_class should be 20" eq_refl))).
Defined.

(** * Further properties of the check *)

Section CheckProperties.

Variable w : env.
Variable models : gmap string entry.

(** A check that passes for a key of the table returns a non-zero
    integer as the class count. *)
Lemma check_named_count n key m t r path :
  models !! key = Some m ->
  _check_pretrained_model w n (Some key) models = (t, inr (r, path)) ->
  nonzero r /\ t = named_events w m
  /\ path = Some (download_path w (entry_url m)).
Proof.
  intros Hm. rewrite (check_named _ _ _ _ _ Hm).
  destruct (truthy_int n) eqn:Hn, (truthy_int (entry_n_fg_class m)) eqn:He;
    cbn [andb]; try destruct (negb (py_eq n (entry_n_fg_class m)));
    try discriminate; intros [= <- <- <-];
    (split; [now apply truthy_int_nonzero|split; reflexivity]).
Qed.

(** The supplied count survives.  Whenever the caller's [n_fg_class] is
    a non-zero integer and the check returns, the count it returns is the
    caller's: a table entry never replaces a supplied count. *)
Theorem supplied_count_kept n p t r path :
  nonzero n ->
  _check_pretrained_model w n p models = (t, inr (r, path)) ->
  r = n.
Proof.
  intros Hn%truthy_int_nonzero.
  destruct (p ≫= (models !!.)) as [m|] eqn:Hp.
  - destruct p as [key|]; [|discriminate]. cbn in Hp.
    rewrite (check_named _ _ _ _ _ Hp), Hn.
    destruct (truthy_int (entry_n_fg_class m)
              && negb (py_eq n (entry_n_fg_class m))); [discriminate|].
    now intros [= _ <- _].
  - rewrite (check_unnamed _ _ _ _ Hp). now intros [= _ <- _].
Qed.

(** The resolved count is a fixed point.  Calling the check again with
    the count it returned, and the same [pretrained_model], does and
    returns the same as the first call. *)
Theorem check_idempotent n p t r path :
  _check_pretrained_model w n p models = (t, inr (r, path)) ->
  _check_pretrained_model w r p models = (t, inr (r, path)).
Proof.
  destruct (p ≫= (models !!.)) as [m|] eqn:Hp.
  - destruct p as [key|]; [|discriminate]. cbn in Hp. intros Hc.
    destruct (check_named_count _ _ _ _ _ _ Hp Hc) as (Hr & -> & ->).
    apply truthy_int_nonzero in Hr.
    rewrite (check_named w models n key m Hp) in Hc.
    rewrite (check_named w models r key m Hp), Hr.
    destruct (truthy_int n) eqn:Hn.
    + destruct (truthy_int (entry_n_fg_class m)
                && negb (py_eq n (entry_n_fg_class m))) eqn:E;
        [discriminate|].
      injection Hc as Hr'. subst r. rewrite E. reflexivity.
    + destruct (truthy_int (entry_n_fg_class m)) eqn:He; [|discriminate].
      injection Hc as Hr'. subst r.
      assert (py_eq (entry_n_fg_class m) (entry_n_fg_class m) = true) as ->
        by now apply py_eq_true.
      reflexivity.
  - rewrite !(check_unnamed _ _ _ _ Hp). now intros [= <- <- <-].
Qed.

(** Only a named weight set reaches the outside world.  If the check
    performs any event, [pretrained_model] is a key of the table, the
    first event is the download of that key's URL, and a warning follows
    exactly when [cv2] is missing. *)
Theorem check_events n p :
  trace (_check_pretrained_model w n p models) = []
  \/ exists key m,
       p = Some key /\ models !! key = Some m
       /\ trace (_check_pretrained_model w n p models) = named_events w m
       /\ returns_normally (_check_pretrained_model w n p models).
Proof.
  destruct (p ≫= (models !!.)) as [m|] eqn:Hp.
  - destruct p as [key|]; [|discriminate]. cbn in Hp.
    rewrite (check_named _ _ _ _ _ Hp).
    repeat match goal with |- context [if ?b then _ else _] => destruct b end;
      try (left; reflexivity);
      right; exists key, m; repeat split; try assumption; eexists; reflexivity.
  - left. now rewrite (check_unnamed _ _ _ _ Hp).
Qed.

End CheckProperties.

(** * Further properties of the constructors *)

Section ConstructorProperties.

Context {ndarray : Type}.
Variable np_load : string -> option (npz ndarray).
Variable initial_params : extractor_class -> multibox -> namedparams ndarray.

(** A constructor in one equation. *)
Lemma construct_spec w cls extractor mb ratios steps sizes n p :
  construct np_load initial_params w cls extractor mb ratios steps sizes n p =
    match _check_pretrained_model w n p (_models cls) with
    | (t, inl e) => (t, inl e)
    | (t, inr (None, _)) => (t, inl no_class_error)
    | (t, inr (Some k, path)) =>
        ((t ++ load_events path)%list,
         after_check np_load
           (fresh_link initial_params cls extractor mb ratios steps sizes k)
           path)
    end.
Proof.
  destruct (_check_pretrained_model w n p (_models cls))
    as [t [e|[[k|] path]]] eqn:Hc.
  - now apply construct_check_raises.
  - destruct (truthy_str path) eqn:Hp.
    + destruct path as [filename|]; [|discriminate].
      assert (Hne : filename <> "") by (intros ->; discriminate).
      rewrite (construct_load _ _ _ _ _ _ _ _ _ _ _ _ _ _ Hc Hne).
      unfold load_events, after_check. rewrite Hp. reflexivity.
    + rewrite (construct_no_path _ _ _ _ _ _ _ _ _ _ _ _ _ _ Hc Hp).
      unfold load_events, after_check.
      destruct path; [rewrite Hp|]; now rewrite app_nil_r.
  - eapply construct_no_class. exact Hc.
Qed.

(** The constants of each constructor: as many tuples of aspect ratios
    as steps; [RefineDet320] sits on the 320 extractor with steps 8, 16,
    32 and 64. *)
Lemma __init___constants w cls :
  exists extractor mb ratios steps sizes,
    __init__ np_load initial_params w cls =
      construct np_load initial_params w cls extractor mb ratios steps sizes
    /\ length ratios = length steps
    /\ (cls = RefineDet320 ->
        extractor = VGG16Extractor320_cls /\ steps = [8; 16; 32; 64]).
Proof.
  destruct cls; do 5 eexists; (split; [reflexivity|]);
    (split; [reflexivity|]); try discriminate.
  intros _. split; reflexivity.
Qed.


Lemma after_check_link self path self' :
  after_check np_load self path = inr self' ->
  link_cls self' = link_cls self
  /\ link_extractor self' = link_extractor self
  /\ link_multibox self' = link_multibox self
  /\ link_steps self' = link_steps self
  /\ link_sizes self' = link_sizes self
  /\ link_mean self' = link_mean self
  /\ (link_params self').*1 = (link_params self).*1.
Proof.
  unfold after_check. destruct path as [filename|].
  - destruct (truthy_str (Some filename)).
    + destruct (np_load filename); [|discriminate].
      intros [= <-]. cbn. repeat split. apply merge_params_names.
    + intros [= <-]. repeat split.
  - intros [= <-]. repeat split.
Qed.

(** The tables have no entry under the empty string. *)
Lemma _models_empty_key cls : _models cls !! "" = None.
Proof. destruct cls; reflexivity. Qed.

End ConstructorProperties.


(** [cv2] being importable or not changes the warning and nothing else
    of the check. *)
Lemma check_available w b (models : gmap string entry) n p :
  outcome (_check_pretrained_model (with_available w b) n p models) =
    outcome (_check_pretrained_model w n p models)
  /\ List.filter (fun ev => negb (is_Warn ev))
       (trace (_check_pretrained_model (with_available w b) n p models)) =
     List.filter (fun ev => negb (is_Warn ev))
       (trace (_check_pretrained_model w n p models)).
Proof.
  destruct (p ≫= (models !!.)) as [m|] eqn:Hp.
  - destruct p as [key|]; [|discriminate]. cbn in Hp.
    rewrite !(check_named _ _ _ _ _ Hp). unfold named_events. cbn.
    repeat match goal with |- context [if ?c then _ else _] => destruct c end;
      split; reflexivity.
  - rewrite !(check_unnamed _ _ _ _ Hp). split; reflexivity.
Qed.

Section ConstructorTheorems.

Context {ndarray : Type}.
Variable np_load : string -> option (npz ndarray).
Variable initial_params : extractor_class -> multibox -> namedparams ndarray.
Variable w : env.

Local Abbreviation init := (__init__ np_load initial_params w).
Local Abbreviation check := (_check_pretrained_model w).

(** C5.  For every detector and every key of its [_models] table.
    When the table fixes a count and the caller gives none or the same,
    the check downloads the key's URL and returns the downloaded file
    with the table's count; when the table fixes none and the caller
    gives a non-zero count, it does the same and returns the caller's
    count.  No call does anything else: it is rejected before the
    download or resolved in this way.  Whenever the check returns, the
    constructor goes on to open the downloaded file, and if this is a
    checkpoint the new link has the resolved count plus one classes and
    the parameters loaded from it. *)
Theorem named_weights_resolved cls key m n :
  _models cls !! key = Some m ->
  (forall c,
     entry_n_fg_class m = Some c -> n = None \/ n = Some c ->
     _check_pretrained_model w n (Some key) (_models cls) =
       (named_events w m, inr (Some c, Some (download_path w (entry_url m)))))
  /\ (entry_n_fg_class m = None -> nonzero n ->
      _check_pretrained_model w n (Some key) (_models cls) =
        (named_events w m, inr (n, Some (download_path w (entry_url m)))))
  /\ ((exists msg,
        _check_pretrained_model w n (Some key) (_models cls) =
          ([], inl (ValueError msg)))
      \/ _check_pretrained_model w n (Some key) (_models cls) =
           (named_events w m,
            inr (resolved_count m n, Some (download_path w (entry_url m)))))
  /\ (forall t r path,
        _check_pretrained_model w n (Some key) (_models cls) =
          (t, inr (r, path)) ->
        t = named_events w m
        /\ r = resolved_count m n
        /\ path = Some (download_path w (entry_url m))
        /\ trace (init cls n (Some key)) =
             (named_events w m
              ++ load_events (Some (download_path w (entry_url m))))%list
        /\ (download_path w (entry_url m) <> "" ->
            forall f, np_load (download_path w (entry_url m)) = Some f ->
            exists self,
              init cls n (Some key) =
                ((named_events w m
                  ++ [Load (download_path w (entry_url m))])%list, inr self)
              /\ resolved_count m n = Some (n_class (link_multibox self) - 1)
              /\ link_params self =
                   merge_params f
                     (initial_params (link_extractor self)
                        (link_multibox self))))
  /\ (forall t self,
        init cls n (Some key) = (t, inr self) ->
        t = (named_events w m
             ++ load_events (Some (download_path w (entry_url m))))%list
        /\ resolved_count m n = Some (n_class (link_multibox self) - 1)).
Proof.
  intros Hm.
  pose proof (check_named_resolved w cls key m n Hm) as Hres.
  split; [|split; [|split; [exact Hres|split]]].
  - intros c Hc Hn.
    assert (Hc0 : c <> 0)
      by (rewrite (_models_fixed _ _ _ _ Hm Hc); discriminate).
    destruct Hn as [-> | ->].
    + now apply check_default.
    + now apply check_match.
  - intros He Hn. apply check_free; [exact Hm|now rewrite He|].
    now apply truthy_int_nonzero.
  - intros t r path Hc.
    destruct (check_named_count _ _ _ _ _ _ _ _ Hm Hc) as ((k & -> & _) & -> & ->).
    assert (Hr : Some k = resolved_count m n).
    { destruct Hres as [[msg Hmsg]|Hok]; rewrite Hc in *; [discriminate|].
      now injection Hok. }
    split; [reflexivity|]. split; [exact Hr|]. split; [reflexivity|].
    destruct (__init___constants np_load initial_params w cls)
      as (ex & mb & ra & st & sz & -> & _).
    rewrite construct_spec, Hc. split; [reflexivity|].
    intros Hdl f Hf. unfold load_events, after_check. cbn [truthy_str].
    destruct (String.eqb_spec (download_path w (entry_url m)) "");
      [contradiction|]. cbn [negb]. rewrite Hf.
    eexists. split; [reflexivity|]. split; [|reflexivity].
    rewrite <- Hr. cbn. f_equal. lia.
  - intros t self Hi. destruct Hres as [[msg Hc]|Hc].
    + rewrite (init_check_raises _ _ _ _ _ _ _ _ Hc) in Hi. discriminate.
    + destruct (init_returns_inv _ _ _ _ _ _ _ _ _ _ _ Hc Hi) as (-> & Hr & _).
      split; [reflexivity|exact Hr].
Qed.


(** The empty string is no weight file: a constructor called with
    [pretrained_model = ''] does and returns exactly what it does and
    returns with [pretrained_model = None]. *)
Theorem empty_string_is_None cls n :
  __init__ np_load initial_params w cls n (Some "") =
    __init__ np_load initial_params w cls n None.
Proof.
  destruct (__init___constants np_load initial_params w cls)
    as (ex & mb & ra & st & sz & -> & _).
  rewrite !construct_spec.
  rewrite !check_unnamed by (cbn; auto using _models_empty_key).
  reflexivity.
Qed.

(** What a constructor does to the outside world, in full: nothing; or
    one [np.load] of the caller's file; or the download of the table's
    URL for the given key (with the [cv2] warning), alone or followed by
    one [np.load] of the downloaded file. *)
Theorem init_trace_shape cls n p :
  trace (init cls n p) = []
  \/ (exists s,
        p = Some s /\ s <> "" /\ _models cls !! s = None
        /\ trace (init cls n p) = [Load s])
  \/ (exists key m,
        p = Some key /\ _models cls !! key = Some m
        /\ (trace (init cls n p) = named_events w m
            \/ trace (init cls n p) =
                 (named_events w m
                  ++ [Load (download_path w (entry_url m))])%list)).
Proof.
  destruct (__init___constants np_load initial_params w cls)
    as (ex & mb & ra & st & sz & -> & _).
  rewrite construct_spec.
  destruct (p ≫= (_models cls !!.)) as [m|] eqn:Hp.
  - destruct p as [key|]; [|discriminate]. cbn in Hp.
    destruct (check n (Some key) (_models cls)) as [t [e|[r path]]] eqn:Hc.
    + left. cbn. eapply check_raise_silent. exact Hc.
    + destruct (check_named_count _ _ _ _ _ _ _ _ Hp Hc)
        as ((k & -> & _) & -> & ->).
      right. right. exists key, m. split; [reflexivity|].
      split; [exact Hp|]. cbn [trace fst]. unfold load_events.
      destruct (truthy_str _); [right; reflexivity|left; apply app_nil_r].
  - rewrite (check_unnamed _ _ _ _ Hp).
    destruct n as [k|]; [|left; reflexivity].
    destruct p as [s|]; [|left; reflexivity].
    cbn in Hp. cbn [truthy_str].
    destruct (String.eqb_spec s "") as [->|Hs]; cbn [negb];
      [left; reflexivity|].
    right. left. exists s. repeat split; try assumption.
    cbn. destruct (String.eqb_spec s ""); [contradiction|reflexivity].
Qed.

(** A link that a constructor returns is of the constructor's class,
    has one tuple of aspect ratios for each step, the ImageNet mean, and
    exactly the parameter names it was initialised with: loading weights
    neither adds nor drops a parameter. *)
Theorem init_link_invariants cls n p t self :
  init cls n p = (t, inr self) ->
  link_cls self = cls
  /\ length (aspect_ratios (link_multibox self)) = length (link_steps self)
  /\ link_mean self = _imagenet_mean
  /\ (link_params self).*1 =
       (initial_params (link_extractor self) (link_multibox self)).*1.
Proof.
  destruct (__init___constants np_load initial_params w cls)
    as (ex & mb & ra & st & sz & -> & Hlen & _).
  rewrite construct_spec.
  destruct (check n p (_models cls)) as [t0 [e|[[k|] path]]];
    try discriminate.
  intros [= _ Ha].
  apply after_check_link in Ha as (-> & -> & -> & -> & _ & -> & ->).
  cbn. repeat split. exact Hlen.
Qed.

(** Whether [cv2] can be imported changes nothing but the warning: the
    outcome of a constructor and all its other events are the same. *)
Theorem cv2_only_warns b cls n p :
  outcome (__init__ np_load initial_params (with_available w b) cls n p) =
    outcome (init cls n p)
  /\ List.filter (fun ev => negb (is_Warn ev))
       (trace (__init__ np_load initial_params (with_available w b) cls n p)) =
     List.filter (fun ev => negb (is_Warn ev)) (trace (init cls n p)).
Proof.
  destruct (check_available w b (_models cls) n p) as [Ho Ht].
  destruct cls; cbn [__init__];
    unfold SSD300Plus__init__, DSSD300__init__, ESSD300Plus__init__,
      ESSD300__init__, RefineDet320__init__;
    rewrite !construct_spec;
    destruct (_check_pretrained_model (with_available w b) n p _)
      as [t' o'], (check n p _) as [t o];
    cbn in Ho, Ht; subst o';
    destruct o as [e|[[k|] path]]; cbn;
    rewrite ?List.filter_app, ?Ht; split; reflexivity.
Qed.

(** For [ESSD300Plus], [ESSD300] and [RefineDet320] the only named
    weight set is ['imagenet']: every other non-empty string -- the
    ['voc0712'] of their docstrings too -- is taken as the path of a local
    file, and nothing is validated or downloaded for it. *)
Theorem only_imagenet_named cls n s :
  cls = ESSD300Plus \/ cls = ESSD300 \/ cls = RefineDet320 ->
  s <> "imagenet" -> s <> "" ->
  _models cls !! s = None
  /\ check n (Some s) (_models cls) = ([], inr (n, Some s)).
Proof.
  intros Hcls Hs Hne.
  assert (Hm : _models cls !! s = None).
  { destruct Hcls as [->|[->| ->]]; cbn [_models];
      now apply lookup_singleton_ne. }
  split; [exact Hm|].
  rewrite check_unnamed by exact Hm. cbn [truthy_str].
  destruct (String.eqb_spec s ""); [contradiction|reflexivity].
Qed.

End ConstructorTheorems.

Lemma named_weights_resolved_witness :
  _models SSD300Plus !! "voc0712" = Some ssd300_voc0712
  /\ _check_pretrained_model example_env None (Some "voc0712")
       (_models SSD300Plus) =
     ([Download (entry_url ssd300_voc0712)],
      inr (Some 20,
           Some (download_path example_env (entry_url ssd300_voc0712))))
  /\ exists self,
       example_init SSD300Plus None (Some "voc0712") =
         ([Download (entry_url ssd300_voc0712);
           Load (download_path example_env (entry_url ssd300_voc0712))],
          inr self)
       /\ n_class (link_multibox self) = 21.
Proof.
  split; [reflexivity|].
  destruct (named_weights_resolved example_np_load example_initial_params
              example_env SSD300Plus "voc0712" ssd300_voc0712 None eq_refl)
    as (Hfixed & _ & _ & Hinit & _).
  pose proof (Hfixed 20 eq_refl (or_introl eq_refl)) as Hcheck.
  split; [exact Hcheck|].
  destruct (Hinit _ _ _ Hcheck) as (_ & _ & _ & _ & Hload).
  destruct (Hload ltac:(discriminate) ∅ eq_refl) as (self & Hrun & Hn & _).
  exists self. split; [exact Hrun|].
  injection Hn as Hn. lia.
Defined.

(** * Further properties of the loader *)

Section LoaderProperties.

Context {ndarray : Type}.

Lemma merge_params_merge (f g : npz ndarray) (obj : namedparams ndarray) :
  merge_params g (merge_params f obj) = merge_params (g ∪ f) obj.
Proof.
  induction obj as [|[name value] rest IH]; [reflexivity|].
  cbn. rewrite lookup_union. fold (merge_params f rest).
  fold (merge_params g (merge_params f rest)). fold (merge_params (g ∪ f) rest).
  rewrite IH. destruct (g !! name), (f !! name); reflexivity.
Qed.

(** Loads compose.  Loading one checkpoint and then another into the
    same parameters gives what a single load of their union gives, the
    later checkpoint winning where both have a name; loading the same
    checkpoint twice gives what loading it once gives.  (The
    deserializer is the name-matching, non-strict one modelled above.) *)
Theorem _load_npz_sequence (np_load : string -> option (npz ndarray))
    file1 file2 f g (obj : namedparams ndarray) :
  np_load file1 = Some f ->
  np_load file2 = Some g ->
  (ps ← _load_npz np_load file1 obj; _load_npz np_load file2 ps) =
    ([Load file1; Load file2], inr (merge_params (g ∪ f) obj))
  /\ (ps ← _load_npz np_load file1 obj; _load_npz np_load file1 ps) =
       ([Load file1; Load file1], inr (merge_params f obj)).
Proof.
  intros Hf Hg. split.
  - rewrite (_load_npz_found _ _ _ _ Hf). unfold mbind, M_bind, bind.
    rewrite (_load_npz_found _ _ _ _ Hg), merge_params_merge. reflexivity.
  - rewrite (_load_npz_found _ _ _ _ Hf). unfold mbind, M_bind, bind.
    rewrite (_load_npz_found _ _ _ _ Hf), merge_params_merge.
    rewrite (idemp_L (∪) f). reflexivity.
Qed.

End LoaderProperties.

(** * Further properties of the extractors *)

(** [norm4] is applied to what is returned, not to what is passed on.
    Replacing [norm4] by any other link leaves the [conv7] map of
    [VGG16RefineDet] and the [conv7] and [conv6_2] maps of
    [VGG16Extractor320] as they are. *)
Theorem norm4_not_fed_forward {variable : Type}
    (relu : variable -> variable)
    (max_pooling_2d : variable -> Z -> option Z -> Z -> variable)
    (self : VGG16Extractor320) (f : variable -> variable) (x : variable) :
  drop 2 (VGG16RefineDet__call__ relu max_pooling_2d
            (with_norm4 (super self) f) x) =
    drop 2 (VGG16RefineDet__call__ relu max_pooling_2d (super self) x)
  /\ exists ys ys',
       VGG16Extractor320__call__ relu max_pooling_2d self x = ([], inr ys)
       /\ VGG16Extractor320__call__ relu max_pooling_2d
            {| super := with_norm4 (super self) f;
               conv6_1 := conv6_1 self; conv6_2 := conv6_2 self |} x =
          ([], inr ys')
       /\ drop 2 ys' = drop 2 ys.
Proof.
  split; [reflexivity|]. do 2 eexists. repeat split.
Qed.

(** ** Sizes of the feature maps *)

Lemma ceil_div_pos size step : 0 < size -> 0 < step -> 0 < ceil_div size step.
Proof.
  intros Hs Hst. unfold ceil_div.
  apply Z.div_str_pos. lia.
Qed.

Lemma ceil_div_twice size step step' :
  0 < step -> 0 < step' ->
  ceil_div (ceil_div size step) step' = ceil_div size (step * step').
Proof.
  intros Hst Hst'. unfold ceil_div.
  replace (size + step * step' - 1)
    with ((size + step - 1) + (step' - 1) * step) by lia.
  rewrite <- Z.div_div, Z.div_add by lia.
  f_equal. lia.
Qed.

Section Layers.

Variables b c h w : Z.
Hypothesis Hh : 0 < h.
Hypothesis Hw : 0 < w.

Lemma same_size out_channels ksize pad dilate :
  pad * 2 = (ksize - 1) * dilate ->
  sliding_window (Some out_channels) ksize 1 pad dilate false
    (Some (Shape b c h w)) = Some (Shape b out_channels h w).
Proof.
  intros Hk. unfold sliding_window, get_conv_outsize. cbn.
  rewrite !Z.div_1_r.
  replace (h + pad * 2 - (ksize + (ksize - 1) * (dilate - 1)) + 1) with h by lia.
  replace (w + pad * 2 - (ksize + (ksize - 1) * (dilate - 1)) + 1) with w by lia.
  destruct (Z.ltb_spec 0 h), (Z.ltb_spec 0 w); try lia. reflexivity.
Qed.

Lemma half_size out_channels ksize pad (cover_all : bool) :
  pad * 2 - ksize + (if cover_all then 1 else 0) = -1 ->
  sliding_window out_channels ksize 2 pad 1 cover_all
    (Some (Shape b c h w)) =
    Some (Shape b (default c out_channels) (ceil_div h 2) (ceil_div w 2)).
Proof.
  intros Hk. unfold sliding_window, get_conv_outsize. cbn.
  assert (Hout : forall size,
    (if cover_all
     then (size + pad * 2 - (ksize + (ksize - 1) * (1 - 1)) + 2 - 1) / 2 + 1
     else (size + pad * 2 - (ksize + (ksize - 1) * (1 - 1))) / 2 + 1) =
    ceil_div size 2).
  { intros size. unfold ceil_div.
    replace (size + 2 - 1) with ((size - 1) + 1 * 2) by lia.
    rewrite Z.div_add by lia.
    destruct cover_all; do 2 f_equal; lia. }
  rewrite !Hout.
  pose proof (ceil_div_pos h 2 Hh ltac:(lia)).
  pose proof (ceil_div_pos w 2 Hw ltac:(lia)).
  destruct (Z.ltb_spec 0 (ceil_div h 2)), (Z.ltb_spec 0 (ceil_div w 2));
    try lia. reflexivity.
Qed.

End Layers.

(** The shapes of the four maps of the 320 extractor, for a batch of
    any positive height and width. *)
Lemma VGG16Extractor320_shapes_eq b c h w :
  0 < h -> 0 < w ->
  VGG16Extractor320_shapes (Shape b c h w) =
    ([], inr (Some <$>
       [Shape b 512 (ceil_div h 8) (ceil_div w 8);
        Shape b 512 (ceil_div h 16) (ceil_div w 16);
        Shape b 1024 (ceil_div h 32) (ceil_div w 32);
        Shape b 512 (ceil_div h 64) (ceil_div w 64)])).
Proof.
  intros Hh Hw.
  assert (H2 : forall s, 0 < s -> 0 < ceil_div s 2)
    by (intros; apply ceil_div_pos; lia).
  unfold VGG16Extractor320_shapes, VGG16Extractor320__call__,
    VGG16RefineDet__call__, VGG16Extractor320__init__,
    VGG16RefineDet__init__, append, getitem_last, relu_shape,
    max_pooling_2d_shape, Convolution2D, DilatedConvolution2D, Normalize.
  cbn [super conv1_1 conv1_2 conv2_1 conv2_2 conv3_1 conv3_2 conv3_3
       conv4_1 conv4_2 conv4_3 norm4 conv5_1 conv5_2 conv5_3 conv6 conv7
       conv6_1 conv6_2 default app].
  repeat (first
    [ rewrite same_size by first [cbn; lia | repeat apply H2; assumption]
    | rewrite half_size by first [cbn; lia | repeat apply H2; assumption] ]).
  cbn [last mbind mret M_bind M_ret bind ret].
  repeat (first
    [ rewrite same_size by first [cbn; lia | repeat apply H2; assumption]
    | rewrite half_size by first [cbn; lia | repeat apply H2; assumption] ]).
  cbn.
  rewrite !ceil_div_twice by lia. reflexivity.
Qed.

(** The maps of a new extractor are the input divided by 8, 16, 32 and
    64.  A [VGG16Extractor320] as [__init__] creates it, called for the
    first time on a batch of positive batch size, channel count, height
    and width, returns four maps as high and wide as the input divided
    by 8, 16, 32 and 64 -- the [steps] that [RefineDet320] passes on --
    rounded up, with 512, 512, 1024 and 512 channels and the batch size
    of the input. *)
Theorem new_extractor_map_sizes (b c h wd : Z) :
  0 < b -> 0 < c -> 0 < h -> 0 < wd ->
  exists ys,
    VGG16Extractor320_shapes (Shape b c h wd) = ([], inr (Some <$> ys))
    /\ height <$> ys = ceil_div h <$> [8; 16; 32; 64]
    /\ width <$> ys = ceil_div wd <$> [8; 16; 32; 64]
    /\ channels <$> ys = [512; 512; 1024; 512]
    /\ batch <$> ys = [b; b; b; b].
Proof.
  intros _ _ Hh Hw.
  rewrite VGG16Extractor320_shapes_eq by assumption.
  eexists. split; [reflexivity|]. repeat split.
Qed.

(** [grids] is right for [insize].  On a batch of 320 x 320 images the
    four maps of [VGG16Extractor320] are 40, 20, 10 and 5 high and wide:
    the entries of [grids], in order. *)
Theorem grids_at_insize (b c : Z) :
  exists ys,
    VGG16Extractor320_shapes (Shape b c insize insize) =
      ([], inr (Some <$> ys))
    /\ height <$> ys = grids
    /\ width <$> ys = grids.
Proof.
  rewrite VGG16Extractor320_shapes_eq by (unfold insize; lia).
  eexists. split; [reflexivity|]. split; reflexivity.
Qed.

(** * Concrete instances of the further properties *)

Lemma supplied_count_kept_witness :
  nonzero (Some 7)
  /\ _check_pretrained_model example_env (Some 7) (Some "imagenet")
       (_models DSSD300) =
     (named_events example_env ssd_vgg16_imagenet,
      inr (Some 7,
           Some (download_path example_env (entry_url ssd_vgg16_imagenet))))
  /\ Some 7 = Some 7.
Proof.
  assert (Hn : nonzero (Some 7)) by (exists 7; split; [reflexivity|discriminate]).
  split; [exact Hn|]. split; [reflexivity|].
  exact (supplied_count_kept example_env (_models DSSD300) (Some 7)
           (Some "imagenet") _ (Some 7) _ Hn eq_refl).
Defined.

Lemma check_idempotent_witness :
  _check_pretrained_model example_env None (Some "voc0712")
    (_models DSSD300) =
    (named_events example_env ssd300_voc0712,
     inr (Some 20,
          Some (download_path example_env (entry_url ssd300_voc0712))))
  /\ _check_pretrained_model example_env (Some 20) (Some "voc0712")
       (_models DSSD300) =
     (named_events example_env ssd300_voc0712,
      inr (Some 20,
           Some (download_path example_env (entry_url ssd300_voc0712)))).
Proof.
  split; [reflexivity|].
  exact (check_idempotent example_env (_models DSSD300) None
           (Some "voc0712") _ _ _ eq_refl).
Defined.

Lemma init_link_invariants_witness :
  exists t self,
    example_init ESSD300 (Some 5) (Some "model.npz") = (t, inr self)
    /\ link_cls self = ESSD300
    /\ length (aspect_ratios (link_multibox self)) = length (link_steps self)
    /\ (link_params self).*1 = ["extractor/conv1_1/W"; "extractor/conv1_1/b"].
Proof.
  do 2 eexists. split; [reflexivity|].
  destruct (init_link_invariants example_np_load example_initial_params
              example_env ESSD300 (Some 5) (Some "model.npz") _ _ eq_refl)
    as (Hcls & Hlen & _ & Hnames).
  split; [exact Hcls|]. split; [exact Hlen|exact Hnames].
Defined.

Lemma only_imagenet_named_witness :
  (RefineDet320 = ESSD300Plus \/ RefineDet320 = ESSD300
   \/ RefineDet320 = RefineDet320)
  /\ "voc0712" <> "imagenet" /\ "voc0712" <> ""
  /\ _check_pretrained_model example_env None (Some "voc0712")
       (_models RefineDet320) = ([], inr (None, Some "voc0712")).
Proof.
  split; [auto|]. split; [discriminate|]. split; [discriminate|].
  apply (only_imagenet_named example_env RefineDet320 None "voc0712");
    [auto|discriminate|discriminate].
Defined.

Lemma _load_npz_sequence_witness :
  example_np_load "/cache/a.npz" = Some ∅
  /\ example_np_load "model.npz" =
       Some {["extractor/conv1_1/W" := 7; "unused" := 9]}
  /\ (ps ← _load_npz example_np_load "/cache/a.npz"
             [("extractor/conv1_1/W", 0); ("extractor/conv1_1/b", 5)];
      _load_npz example_np_load "model.npz" ps) =
     ([Load "/cache/a.npz"; Load "model.npz"],
      inr [("extractor/conv1_1/W", 7); ("extractor/conv1_1/b", 5)]).
Proof.
  split; [reflexivity|]. split; [reflexivity|].
  exact (proj1 (_load_npz_sequence example_np_load "/cache/a.npz" "model.npz"
                  ∅ {["extractor/conv1_1/W" := 7; "unused" := 9]}
                  [("extractor/conv1_1/W", 0); ("extractor/conv1_1/b", 5)]
                  eq_refl eq_refl)).
Defined.

Lemma new_extractor_map_sizes_witness :
  0 < 2 /\ 0 < 3 /\ 0 < 300 /\ 0 < 513
  /\ exists ys,
       VGG16Extractor320_shapes (Shape 2 3 300 513) = ([], inr (Some <$> ys))
       /\ height <$> ys = [38; 19; 10; 5]
       /\ width <$> ys = [65; 33; 17; 9].
Proof.
  repeat (split; [lia|]).
  destruct (new_extractor_map_sizes 2 3 300 513
              ltac:(lia) ltac:(lia) ltac:(lia) ltac:(lia))
    as (ys & Hys & Hh & Hw & _).
  exists ys. split; [exact Hys|]. split; [exact Hh|exact Hw].
Defined.
